(** * q2-sample-classifier: the estimator catalogue of [classify.py]

    A shallow embedding of [q2_sample_classifier/classify.py].  Every entry
    point of that file selects a scikit-learn estimator, builds a
    hyper-parameter search space and hands both to the shared pipeline of
    [utilities.py].  The pipeline, the report writer and the objects they
    exchange live outside the file; they are taken here as an interface
    ([Collaborators]) whose calls are recorded in a log, so that what the file
    forwards to them can be stated and proved. *)

From Stdlib Require Import ZArith Floats.
From stdpp Require Import gmap strings list fin_maps.

Set Warnings "-inexact-float".
Local Open Scope string_scope.

(** ** Values *)

(** Objects owned by the collaborators (data frames, confusion matrices,
    scores, exception instances) are opaque references. *)
Inductive PyObj := Obj (ref : N).

(** [biom.Table] and [qiime2.Metadata], as the annotations name them. *)
Inductive Table := BiomTable (ref : N).
Inductive Metadata := QiimeMetadata (ref : N).

(** Literals that occur in the search-space dictionaries. *)
Inductive PyLit :=
| LInt (z : Z)
| LFloat (f : float)
| LStr (s : string)
| LBool (b : bool)
| LNone.

(** A search-space entry: a list of candidates or [scipy.stats.randint]. *)
Inductive ParamSpace :=
| choices (candidates : list PyLit)
| randint (low high : Z).

(** The estimators the file constructs.  scikit-learn constructors only store
    their arguments, so construction is pure.  [ExternalEstimator] stands for
    an estimator object handed back by a collaborator. *)
Inductive Estimator :=
| RandomForestClassifier (n_jobs n_estimators : Z)
| RandomForestRegressor (n_jobs n_estimators : Z)
| ExtraTreesClassifier (n_jobs n_estimators : Z)
| ExtraTreesRegressor (n_jobs n_estimators : Z)
| DecisionTreeClassifier
| DecisionTreeRegressor
| AdaBoostClassifier (base_estimator : Estimator) (n_estimators : Z)
| AdaBoostRegressor (base_estimator : Estimator) (n_estimators : Z)
| GradientBoostingClassifier (n_estimators : Z)
| GradientBoostingRegressor (n_estimators : Z)
| LinearSVC
| SVC (kernel : string)
| SVR (kernel : string)
| Ridge (solver : string)
| Lasso
| ElasticNet
| KNeighborsClassifier (algorithm : string)
| KNeighborsRegressor (algorithm : string)
| ExternalEstimator (o : PyObj).

Inductive EstimatorKind := Classifier | Regressor | UnknownKind.

(** Which scikit-learn family a constructed estimator belongs to. *)
Definition estimator_kind (e : Estimator) : EstimatorKind :=
  match e with
  | RandomForestClassifier _ _ | ExtraTreesClassifier _ _
  | DecisionTreeClassifier | AdaBoostClassifier _ _
  | GradientBoostingClassifier _ | LinearSVC | SVC _
  | KNeighborsClassifier _ => Classifier
  | RandomForestRegressor _ _ | ExtraTreesRegressor _ _
  | DecisionTreeRegressor | AdaBoostRegressor _ _
  | GradientBoostingRegressor _ | SVR _ | Ridge _ | Lasso | ElasticNet
  | KNeighborsRegressor _ => Regressor
  | ExternalEstimator _ => UnknownKind
  end.

(** [sklearn.metrics.mean_squared_error], the only scorer the file names. *)
Inductive Scorer := mean_squared_error.

Inductive WarningCategory :=
| Warning | UserWarning | DeprecationWarning | RuntimeWarning | FutureWarning.

(** ** Calls to the collaborators *)

(** Keyword arguments of [tune_parameters]. *)
Record TuneParametersArgs := {
  tp_features : PyObj;
  tp_targets : PyObj;
  tp_estimator : Estimator;
  tp_param_dist : gmap string ParamSpace;
  tp_n_jobs : Z;
  tp_cv : Z;
  tp_random_state : option Z }.

(** Arguments of [split_optimize_classify].  [scoring] and [classification]
    are [None] when the caller leaves them to the callee's defaults. *)
Record SplitOptimizeClassifyArgs := {
  soc_table : Table;
  soc_metadata : Metadata;
  soc_category : string;
  soc_estimator : Estimator;
  soc_output_dir : string;
  soc_test_size : float;
  soc_step : float;
  soc_cv : Z;
  soc_random_state : option Z;
  soc_n_jobs : Z;
  soc_optimize_feature_selection : bool;
  soc_parameter_tuning : bool;
  soc_param_dist : gmap string ParamSpace;
  soc_calc_feature_importance : bool;
  soc_scoring : option Scorer;
  soc_classification : option bool }.

(** Positional arguments of [visualize]. *)
Record VisualizeArgs := {
  vis_output_dir : string;
  vis_estimator : Estimator;
  vis_cm : PyObj;
  vis_accuracy : PyObj;
  vis_importances : PyObj;
  vis_optimize_feature_selection : bool }.

Inductive Call :=
| call_load_data (table : Table) (metadata : Metadata) (transpose : bool)
| call_getitem (obj : PyObj) (key : string)
| call_tune_parameters (a : TuneParametersArgs)
| call_split_optimize_classify (a : SplitOptimizeClassifyArgs)
| call_visualize (a : VisualizeArgs)
| call_predict (estimator : Estimator) (table : Table).

(** What is observable of a run: each collaborator call with the exception
    it raised, if any, and each warning issued. *)
Inductive Event :=
| Called (c : Call) (raised : option PyObj)
| Warned (category : WarningCategory) (message : string).

(** A collaborator either returns or raises. *)
Inductive Outcome (A : Type) :=
| Returned (a : A)
| Threw (exc : PyObj).
Arguments Returned {A} a.
Arguments Threw {A} exc.

(** The code [classify.py] imports or calls into.  Nothing is assumed of it:
    each operation may depend on, and change, an arbitrary external world
    (file system, random state), and may raise. *)
Class Collaborators := {
  World : Type;
  ext_load_data :
    Table → Metadata → bool → World → Outcome (PyObj * PyObj) * World;
  ext_getitem : PyObj → string → World → Outcome PyObj * World;
  ext_tune_parameters :
    TuneParametersArgs → World → Outcome Estimator * World;
  ext_split_optimize_classify :
    SplitOptimizeClassifyArgs → World →
    Outcome (Estimator * PyObj * PyObj * PyObj) * World;
  ext_visualize : VisualizeArgs → World → Outcome unit * World;
  ext_predict : Estimator → Table → World → Outcome PyObj * World }.

(** ** Exceptions and the execution monad *)

Inductive Exn :=
| KeyError (key : string)
| Propagated (exc : PyObj).

Inductive Result (A : Type) :=
| Ok (a : A)
| Raise (e : Exn).
Arguments Ok {A} a.
Arguments Raise {A} e.

#[global] Instance Result_ret : MRet Result := λ A a, Ok a.
#[global] Instance Result_bind : MBind Result := λ A B f r,
  match r with
  | Ok a => f a
  | Raise e => Raise e
  end.

Section Execution.
Context {env : Collaborators}.

Record State := { world : World; log : list Event }.

Definition M (A : Type) : Type := State → Result A * State.

#[global] Instance M_ret : MRet M := λ A a s, (Ok a, s).
#[global] Instance M_bind : MBind M := λ A B f m s,
  match m s with
  | (Ok a, s') => f a s'
  | (Raise e, s') => (Raise e, s')
  end.

(** A pure computation that may raise, run inside [M]. *)
Definition lift {A} (r : Result A) : M A := λ s, (r, s).

(** Call a collaborator: thread the world, record the call, and let an
    exception escape as it is. *)
Definition invoke {A} (c : Call) (f : World → Outcome A * World) : M A :=
  λ s,
    match f (world s) with
    | (Returned a, w) =>
        (Ok a, {| world := w; log := log s ++ [Called c None] |})
    | (Threw exc, w) =>
        (Raise (Propagated exc),
         {| world := w; log := log s ++ [Called c (Some exc)] |})
    end.

(** [warnings.warn(message, category)] under the default filters: the
    warning is issued and control returns. *)
Definition warnings_warn (message : string) (category : WarningCategory)
  : M unit :=
  λ s, (Ok (), {| world := world s;
                  log := log s ++ [Warned category message] |}).

(** Run from an empty log. *)
Definition exec {A} (m : M A) (w : World) : Result A * State :=
  m {| world := w; log := [] |}.

Definition load_data (table : Table) (metadata : Metadata)
    (transpose : bool) : M (PyObj * PyObj) :=
  invoke (call_load_data table metadata transpose)
         (ext_load_data table metadata transpose).

(** [obj[key]] on an object of a collaborator. *)
Definition getitem (obj : PyObj) (key : string) : M PyObj :=
  invoke (call_getitem obj key) (ext_getitem obj key).

Definition tune_parameters (a : TuneParametersArgs) : M Estimator :=
  invoke (call_tune_parameters a) (ext_tune_parameters a).

Definition split_optimize_classify (a : SplitOptimizeClassifyArgs)
  : M (Estimator * PyObj * PyObj * PyObj) :=
  invoke (call_split_optimize_classify a) (ext_split_optimize_classify a).

Definition visualize (output_dir : string) (estimator : Estimator)
    (cm accuracy importances : PyObj) (optimize_feature_selection : bool)
  : M unit :=
  invoke
    (call_visualize
       {| vis_output_dir := output_dir; vis_estimator := estimator;
          vis_cm := cm; vis_accuracy := accuracy;
          vis_importances := importances;
          vis_optimize_feature_selection := optimize_feature_selection |})
    (ext_visualize
       {| vis_output_dir := output_dir; vis_estimator := estimator;
          vis_cm := cm; vis_accuracy := accuracy;
          vis_importances := importances;
          vis_optimize_feature_selection := optimize_feature_selection |}).

(** [estimator.predict(table)]. *)
Definition predict (estimator : Estimator) (table : Table) : M PyObj :=
  invoke (call_predict estimator table) (ext_predict estimator table).
End Execution.

(** ** Dictionaries *)

(** [d[k]]: the value, or [KeyError]. *)
Definition dict_getitem {V} (d : gmap string V) (k : string) : Result V :=
  match d !! k with
  | Some v => Ok v
  | None => Raise (KeyError k)
  end.

(** [d.keys()]. *)
Definition keys {V} (d : gmap string V) : list string := (map_to_list d).*1.

(** [{k: value(k) for k in ks if cond(k)}], filled key by key into [acc]. *)
Fixpoint dict_comprehension {V} (ks : list string) (cond : string → bool)
    (value : string → Result V) (acc : gmap string V)
  : Result (gmap string V) :=
  match ks with
  | [] => Ok acc
  | k :: ks' =>
      if cond k
      then v ← value k; dict_comprehension ks' cond value (<[k := v]> acc)
      else dict_comprehension ks' cond value acc
  end.

(** ** Module-level search spaces *)

Definition ensemble_params : gmap string ParamSpace :=
  list_to_map
    [("max_depth", choices [LInt 4; LInt 8; LInt 16; LNone]);
     ("max_features",
       choices [LNone; LStr "sqrt"; LStr "log2"; LFloat 0.1%float]);
     ("min_samples_split",
       choices [LFloat 0.001%float; LFloat 0.01%float; LFloat 0.1%float]);
     ("min_weight_fraction_leaf",
       choices [LFloat 0.0001%float; LFloat 0.001%float; LFloat 0.01%float]);
     ("bootstrap", choices [LBool true; LBool false])].

Definition linear_svm_params : gmap string ParamSpace :=
  list_to_map
    [("C", choices [LInt 1; LFloat 0.5%float; LFloat 0.1%float;
                    LFloat 0.9%float; LFloat 0.8%float]);
     ("loss", choices [LStr "hinge"; LStr "squared_hinge"]);
     ("tol",
       choices [LFloat 0.00001%float; LFloat 0.0001%float;
                LFloat 0.001%float])].

Definition svm_params : gmap string ParamSpace :=
  list_to_map
    [("C", choices [LInt 1; LFloat 0.5%float; LFloat 0.1%float;
                    LFloat 0.9%float; LFloat 0.8%float]);
     ("tol",
       choices [LFloat 0.00001%float; LFloat 0.0001%float;
                LFloat 0.001%float; LFloat 0.01%float]);
     ("shrinking", choices [LBool true; LBool false])].

Definition neighbors_params : gmap string ParamSpace :=
  list_to_map
    [("n_neighbors", randint 2 15);
     ("weights", choices [LStr "uniform"; LStr "distance"]);
     ("leaf_size", randint 15 100)].

Definition linear_params : gmap string ParamSpace :=
  list_to_map
    [("alpha",
       choices [LFloat 0.0001%float; LFloat 0.01%float; LFloat 1.0%float;
                LFloat 10.0%float; LFloat 1000.0%float]);
     ("tol",
       choices [LFloat 0.00001%float; LFloat 0.0001%float;
                LFloat 0.001%float; LFloat 0.01%float])].

Arguments ensemble_params : simpl never.
Arguments linear_svm_params : simpl never.
Arguments svm_params : simpl never.
Arguments neighbors_params : simpl never.
Arguments linear_params : simpl never.

(** ** The functions of [classify.py] *)

Section Functions.
Context {env : Collaborators}.

Definition recursive_feature_extraction_warning : string :=
  "This estimator does not support recursive feature extraction with " ++
  "the parameter settings requested. See documentation or try a " ++
  "different estimator model.".

Definition warn_feature_selection : M unit :=
  let warning := recursive_feature_extraction_warning in
  warnings_warn warning UserWarning.

Definition svm_set (kernel : string) (optimize_feature_selection : bool)
  : M (bool * bool) :=
  if bool_decide (kernel = "linear")
  then
    let calc_feature_importance := true in
    let optimize_feature_selection := optimize_feature_selection in
    mret (calc_feature_importance, optimize_feature_selection)
  else
    let calc_feature_importance := false in
    let optimize_feature_selection := false in
    warn_feature_selection;;
    mret (calc_feature_importance, optimize_feature_selection).

Definition classify_random_forest (output_dir : string) (table : Table)
    (metadata : Metadata) (category : string) (test_size step : float)
    (cv : Z) (random_state : option Z) (n_jobs n_estimators : Z)
    (optimize_feature_selection parameter_tuning : bool) : M unit :=
  let param_dist :=
    <["criterion" := choices [LStr "gini"; LStr "entropy"]]> ensemble_params in
  let estimator := RandomForestClassifier n_jobs n_estimators in
  '(estimator, cm, accuracy, importances) ← split_optimize_classify
    {| soc_table := table; soc_metadata := metadata;
       soc_category := category; soc_estimator := estimator;
       soc_output_dir := output_dir;
       soc_test_size := test_size; soc_step := step; soc_cv := cv;
       soc_random_state := random_state; soc_n_jobs := n_jobs;
       soc_optimize_feature_selection := optimize_feature_selection;
       soc_parameter_tuning := parameter_tuning;
       soc_param_dist := param_dist;
       soc_calc_feature_importance := true;
       soc_scoring := None; soc_classification := None |};
  visualize output_dir estimator cm accuracy importances
            optimize_feature_selection.

Definition classify_extra_trees (output_dir : string) (table : Table)
    (metadata : Metadata) (category : string) (test_size step : float)
    (cv : Z) (random_state : option Z) (n_jobs n_estimators : Z)
    (optimize_feature_selection parameter_tuning : bool) : M unit :=
  let param_dist :=
    <["criterion" := choices [LStr "gini"; LStr "entropy"]]> ensemble_params in
  let estimator := ExtraTreesClassifier n_jobs n_estimators in
  '(estimator, cm, accuracy, importances) ← split_optimize_classify
    {| soc_table := table; soc_metadata := metadata;
       soc_category := category; soc_estimator := estimator;
       soc_output_dir := output_dir;
       soc_test_size := test_size; soc_step := step; soc_cv := cv;
       soc_random_state := random_state; soc_n_jobs := n_jobs;
       soc_optimize_feature_selection := optimize_feature_selection;
       soc_parameter_tuning := parameter_tuning;
       soc_param_dist := param_dist;
       soc_calc_feature_importance := true;
       soc_scoring := None; soc_classification := None |};
  visualize output_dir estimator cm accuracy importances
            optimize_feature_selection.

Definition classify_adaboost (output_dir : string) (table : Table)
    (metadata : Metadata) (category : string) (test_size step : float)
    (cv : Z) (random_state : option Z) (n_jobs n_estimators : Z)
    (optimize_feature_selection parameter_tuning : bool) : M unit :=
  let base_estimator := DecisionTreeClassifier in
  param_dist ← lift (dict_comprehension (keys ensemble_params)
                       (λ k, bool_decide (k ≠ "bootstrap"))
                       (λ k, dict_getitem ensemble_params k) ∅);
  base_estimator ←
    (if parameter_tuning
     then
       '(features, targets) ← load_data table metadata true;
       targets_category ← getitem targets category;
       tune_parameters
         {| tp_features := features; tp_targets := targets_category;
            tp_estimator := base_estimator; tp_param_dist := param_dist;
            tp_n_jobs := n_jobs; tp_cv := cv;
            tp_random_state := random_state |}
     else mret base_estimator);
  let estimator := AdaBoostClassifier base_estimator n_estimators in
  '(estimator, cm, accuracy, importances) ← split_optimize_classify
    {| soc_table := table; soc_metadata := metadata;
       soc_category := category; soc_estimator := estimator;
       soc_output_dir := output_dir;
       soc_test_size := test_size; soc_step := step; soc_cv := cv;
       soc_random_state := random_state; soc_n_jobs := n_jobs;
       soc_optimize_feature_selection := optimize_feature_selection;
       soc_parameter_tuning := false;
       soc_param_dist := param_dist;
       soc_calc_feature_importance := true;
       soc_scoring := None; soc_classification := None |};
  visualize output_dir estimator cm accuracy importances
            optimize_feature_selection.

Definition classify_gradient_boosting (output_dir : string) (table : Table)
    (metadata : Metadata) (category : string) (test_size step : float)
    (cv : Z) (random_state : option Z) (n_jobs n_estimators : Z)
    (optimize_feature_selection parameter_tuning : bool) : M unit :=
  param_dist ← lift (dict_comprehension (keys ensemble_params)
                       (λ k, bool_decide (k ≠ "bootstrap"))
                       (λ k, dict_getitem ensemble_params k) ∅);
  let estimator := GradientBoostingClassifier n_estimators in
  '(estimator, cm, accuracy, importances) ← split_optimize_classify
    {| soc_table := table; soc_metadata := metadata;
       soc_category := category; soc_estimator := estimator;
       soc_output_dir := output_dir;
       soc_test_size := test_size; soc_step := step; soc_cv := cv;
       soc_random_state := random_state; soc_n_jobs := n_jobs;
       soc_optimize_feature_selection := optimize_feature_selection;
       soc_parameter_tuning := parameter_tuning;
       soc_param_dist := param_dist;
       soc_calc_feature_importance := true;
       soc_scoring := None; soc_classification := None |};
  visualize output_dir estimator cm accuracy importances
            optimize_feature_selection.

Definition regress_random_forest (output_dir : string) (table : Table)
    (metadata : Metadata) (category : string) (test_size step : float)
    (cv : Z) (random_state : option Z) (n_jobs n_estimators : Z)
    (optimize_feature_selection parameter_tuning : bool) : M unit :=
  let param_dist := ensemble_params in
  let estimator := RandomForestRegressor n_jobs n_estimators in
  '(estimator, cm, accuracy, importances) ← split_optimize_classify
    {| soc_table := table; soc_metadata := metadata;
       soc_category := category; soc_estimator := estimator;
       soc_output_dir := output_dir;
       soc_test_size := test_size; soc_step := step; soc_cv := cv;
       soc_random_state := random_state; soc_n_jobs := n_jobs;
       soc_optimize_feature_selection := optimize_feature_selection;
       soc_parameter_tuning := parameter_tuning;
       soc_param_dist := param_dist;
       soc_calc_feature_importance := true;
       soc_scoring := Some mean_squared_error; soc_classification := Some false |};
  visualize output_dir estimator cm accuracy importances
            optimize_feature_selection.

Definition regress_extra_trees (output_dir : string) (table : Table)
    (metadata : Metadata) (category : string) (test_size step : float)
    (cv : Z) (random_state : option Z) (n_jobs n_estimators : Z)
    (optimize_feature_selection parameter_tuning : bool) : M unit :=
  let param_dist := ensemble_params in
  let estimator := ExtraTreesRegressor n_jobs n_estimators in
  '(estimator, cm, accuracy, importances) ← split_optimize_classify
    {| soc_table := table; soc_metadata := metadata;
       soc_category := category; soc_estimator := estimator;
       soc_output_dir := output_dir;
       soc_test_size := test_size; soc_step := step; soc_cv := cv;
       soc_random_state := random_state; soc_n_jobs := n_jobs;
       soc_optimize_feature_selection := optimize_feature_selection;
       soc_parameter_tuning := parameter_tuning;
       soc_param_dist := param_dist;
       soc_calc_feature_importance := true;
       soc_scoring := Some mean_squared_error; soc_classification := Some false |};
  visualize output_dir estimator cm accuracy importances
            optimize_feature_selection.

Definition regress_adaboost (output_dir : string) (table : Table)
    (metadata : Metadata) (category : string) (test_size step : float)
    (cv : Z) (random_state : option Z) (n_jobs n_estimators : Z)
    (optimize_feature_selection parameter_tuning : bool) : M unit :=
  let base_estimator := DecisionTreeRegressor in
  param_dist ← lift (dict_comprehension (keys ensemble_params)
                       (λ k, bool_decide (k ≠ "bootstrap"))
                       (λ k, dict_getitem ensemble_params k) ∅);
  base_estimator ←
    (if parameter_tuning
     then
       '(features, targets) ← load_data table metadata true;
       targets_category ← getitem targets category;
       tune_parameters
         {| tp_features := features; tp_targets := targets_category;
            tp_estimator := base_estimator; tp_param_dist := param_dist;
            tp_n_jobs := n_jobs; tp_cv := cv;
            tp_random_state := random_state |}
     else mret base_estimator);
  let estimator := AdaBoostRegressor base_estimator n_estimators in
  '(estimator, cm, accuracy, importances) ← split_optimize_classify
    {| soc_table := table; soc_metadata := metadata;
       soc_category := category; soc_estimator := estimator;
       soc_output_dir := output_dir;
       soc_test_size := test_size; soc_step := step; soc_cv := cv;
       soc_random_state := random_state; soc_n_jobs := n_jobs;
       soc_optimize_feature_selection := optimize_feature_selection;
       soc_parameter_tuning := false;
       soc_param_dist := param_dist;
       soc_calc_feature_importance := true;
       soc_scoring := Some mean_squared_error; soc_classification := Some false |};
  visualize output_dir estimator cm accuracy importances
            optimize_feature_selection.

Definition regress_gradient_boosting (output_dir : string) (table : Table)
    (metadata : Metadata) (category : string) (test_size step : float)
    (cv : Z) (random_state : option Z) (n_jobs n_estimators : Z)
    (optimize_feature_selection parameter_tuning : bool) : M unit :=
  param_dist ← lift (dict_comprehension (keys ensemble_params)
                       (λ k, bool_decide (k ≠ "bootstrap"))
                       (λ k, dict_getitem ensemble_params k) ∅);
  let estimator := GradientBoostingRegressor n_estimators in
  '(estimator, cm, accuracy, importances) ← split_optimize_classify
    {| soc_table := table; soc_metadata := metadata;
       soc_category := category; soc_estimator := estimator;
       soc_output_dir := output_dir;
       soc_test_size := test_size; soc_step := step; soc_cv := cv;
       soc_random_state := random_state; soc_n_jobs := n_jobs;
       soc_optimize_feature_selection := optimize_feature_selection;
       soc_parameter_tuning := parameter_tuning;
       soc_param_dist := param_dist;
       soc_calc_feature_importance := true;
       soc_scoring := Some mean_squared_error; soc_classification := Some false |};
  visualize output_dir estimator cm accuracy importances
            optimize_feature_selection.

Definition classify_linearSVC (output_dir : string) (table : Table)
    (metadata : Metadata) (category : string) (test_size step : float)
    (cv : Z) (random_state : option Z) (n_jobs : Z)
    (parameter_tuning optimize_feature_selection : bool) : M unit :=
  let param_dist := linear_svm_params in
  let estimator := LinearSVC in
  '(estimator, cm, accuracy, importances) ← split_optimize_classify
    {| soc_table := table; soc_metadata := metadata;
       soc_category := category; soc_estimator := estimator;
       soc_output_dir := output_dir;
       soc_test_size := test_size; soc_step := step; soc_cv := cv;
       soc_random_state := random_state; soc_n_jobs := n_jobs;
       soc_optimize_feature_selection := optimize_feature_selection;
       soc_parameter_tuning := parameter_tuning;
       soc_param_dist := param_dist;
       soc_calc_feature_importance := true;
       soc_scoring := None; soc_classification := None |};
  visualize output_dir estimator cm accuracy importances
            optimize_feature_selection.

Definition classify_SVC (output_dir : string) (table : Table)
    (metadata : Metadata) (category : string) (test_size step : float)
    (cv : Z) (random_state : option Z) (n_jobs : Z)
    (parameter_tuning optimize_feature_selection : bool)
    (kernel : string) : M unit :=
  let param_dist := svm_params in
  let estimator := SVC kernel in
  '(calc_feature_importance, optimize_feature_selection) ←
    svm_set kernel optimize_feature_selection;
  '(estimator, cm, accuracy, importances) ← split_optimize_classify
    {| soc_table := table; soc_metadata := metadata;
       soc_category := category; soc_estimator := estimator;
       soc_output_dir := output_dir;
       soc_test_size := test_size; soc_step := step; soc_cv := cv;
       soc_random_state := random_state; soc_n_jobs := n_jobs;
       soc_optimize_feature_selection := optimize_feature_selection;
       soc_parameter_tuning := parameter_tuning;
       soc_param_dist := param_dist;
       soc_calc_feature_importance := calc_feature_importance;
       soc_scoring := None; soc_classification := None |};
  visualize output_dir estimator cm accuracy importances
            optimize_feature_selection.

Definition regress_SVR (output_dir : string) (table : Table)
    (metadata : Metadata) (category : string) (test_size step : float)
    (cv : Z) (random_state : option Z) (n_jobs : Z)
    (parameter_tuning optimize_feature_selection : bool)
    (kernel : string) : M unit :=
  let param_dist :=
    <["epsilon" := choices [LFloat 0.0%float; LFloat 0.1%float]]> svm_params in
  let estimator := SVR kernel in
  '(calc_feature_importance, optimize_feature_selection) ←
    svm_set kernel optimize_feature_selection;
  '(estimator, cm, accuracy, importances) ← split_optimize_classify
    {| soc_table := table; soc_metadata := metadata;
       soc_category := category; soc_estimator := estimator;
       soc_output_dir := output_dir;
       soc_test_size := test_size; soc_step := step; soc_cv := cv;
       soc_random_state := random_state; soc_n_jobs := n_jobs;
       soc_optimize_feature_selection := optimize_feature_selection;
       soc_parameter_tuning := parameter_tuning;
       soc_param_dist := param_dist;
       soc_calc_feature_importance := calc_feature_importance;
       soc_scoring := Some mean_squared_error; soc_classification := Some false |};
  visualize output_dir estimator cm accuracy importances
            optimize_feature_selection.

Definition regress_ridge (output_dir : string) (table : Table)
    (metadata : Metadata) (category : string) (test_size step : float)
    (cv : Z) (random_state : option Z) (n_jobs : Z)
    (parameter_tuning optimize_feature_selection : bool)
    (solver : string) : M unit :=
  let param_dist := linear_params in
  let estimator := Ridge solver in
  '(estimator, cm, accuracy, importances) ← split_optimize_classify
    {| soc_table := table; soc_metadata := metadata;
       soc_category := category; soc_estimator := estimator;
       soc_output_dir := output_dir;
       soc_test_size := test_size; soc_step := step; soc_cv := cv;
       soc_random_state := random_state; soc_n_jobs := n_jobs;
       soc_optimize_feature_selection := optimize_feature_selection;
       soc_parameter_tuning := parameter_tuning;
       soc_param_dist := param_dist;
       soc_calc_feature_importance := true;
       soc_scoring := Some mean_squared_error; soc_classification := Some false |};
  visualize output_dir estimator cm accuracy importances
            optimize_feature_selection.

Definition regress_lasso (output_dir : string) (table : Table)
    (metadata : Metadata) (category : string) (test_size step : float)
    (cv : Z) (random_state : option Z) (n_jobs : Z)
    (optimize_feature_selection parameter_tuning : bool) : M unit :=
  let param_dist := linear_params in
  let estimator := Lasso in
  '(estimator, cm, accuracy, importances) ← split_optimize_classify
    {| soc_table := table; soc_metadata := metadata;
       soc_category := category; soc_estimator := estimator;
       soc_output_dir := output_dir;
       soc_test_size := test_size; soc_step := step; soc_cv := cv;
       soc_random_state := random_state; soc_n_jobs := n_jobs;
       soc_optimize_feature_selection := optimize_feature_selection;
       soc_parameter_tuning := parameter_tuning;
       soc_param_dist := param_dist;
       soc_calc_feature_importance := true;
       soc_scoring := Some mean_squared_error; soc_classification := Some false |};
  visualize output_dir estimator cm accuracy importances
            optimize_feature_selection.

Definition regress_elasticnet (output_dir : string) (table : Table)
    (metadata : Metadata) (category : string) (test_size step : float)
    (cv : Z) (random_state : option Z) (n_jobs : Z)
    (optimize_feature_selection parameter_tuning : bool) : M unit :=
  let param_dist := linear_params in
  let estimator := ElasticNet in
  '(estimator, cm, accuracy, importances) ← split_optimize_classify
    {| soc_table := table; soc_metadata := metadata;
       soc_category := category; soc_estimator := estimator;
       soc_output_dir := output_dir;
       soc_test_size := test_size; soc_step := step; soc_cv := cv;
       soc_random_state := random_state; soc_n_jobs := n_jobs;
       soc_optimize_feature_selection := optimize_feature_selection;
       soc_parameter_tuning := parameter_tuning;
       soc_param_dist := param_dist;
       soc_calc_feature_importance := true;
       soc_scoring := Some mean_squared_error; soc_classification := Some false |};
  visualize output_dir estimator cm accuracy importances
            optimize_feature_selection.

Definition classify_kneighbors (output_dir : string) (table : Table)
    (metadata : Metadata) (category : string) (test_size step : float)
    (cv : Z) (random_state : option Z) (n_jobs : Z)
    (parameter_tuning : bool) (algorithm : string) : M unit :=
  let param_dist := neighbors_params in
  let estimator := KNeighborsClassifier algorithm in
  '(estimator, cm, accuracy, importances) ← split_optimize_classify
    {| soc_table := table; soc_metadata := metadata;
       soc_category := category; soc_estimator := estimator;
       soc_output_dir := output_dir;
       soc_test_size := test_size; soc_step := step; soc_cv := cv;
       soc_random_state := random_state; soc_n_jobs := n_jobs;
       soc_optimize_feature_selection := false;
       soc_parameter_tuning := parameter_tuning;
       soc_param_dist := param_dist;
       soc_calc_feature_importance := false;
       soc_scoring := None; soc_classification := None |};
  visualize output_dir estimator cm accuracy importances false.

Definition regress_kneighbors (output_dir : string) (table : Table)
    (metadata : Metadata) (category : string) (test_size step : float)
    (cv : Z) (random_state : option Z) (n_jobs : Z)
    (parameter_tuning : bool) (algorithm : string) : M unit :=
  let param_dist := neighbors_params in
  let estimator := KNeighborsRegressor algorithm in
  '(estimator, cm, accuracy, importances) ← split_optimize_classify
    {| soc_table := table; soc_metadata := metadata;
       soc_category := category; soc_estimator := estimator;
       soc_output_dir := output_dir;
       soc_test_size := test_size; soc_step := step; soc_cv := cv;
       soc_random_state := random_state; soc_n_jobs := n_jobs;
       soc_optimize_feature_selection := false;
       soc_parameter_tuning := parameter_tuning;
       soc_param_dist := param_dist;
       soc_calc_feature_importance := false;
       soc_scoring := Some mean_squared_error; soc_classification := Some false |};
  visualize output_dir estimator cm accuracy importances false.

(** Use a trained estimator to predict values on unseen data. *)
Definition classify_new_data (table : Table) (estimator : Estimator)
  : M PyObj :=
  predictions ← predict estimator table;
  mret predictions.

End Functions.

(** ** Reading a log *)

Definition soc_calls (l : list Event) : list SplitOptimizeClassifyArgs :=
  omap (λ ev, match ev with
              | Called (call_split_optimize_classify a) _ => Some a
              | _ => None
              end) l.

Definition tune_calls (l : list Event) : list TuneParametersArgs :=
  omap (λ ev, match ev with
              | Called (call_tune_parameters a) _ => Some a
              | _ => None
              end) l.

Definition load_calls (l : list Event) : list (Table * Metadata * bool) :=
  omap (λ ev, match ev with
              | Called (call_load_data t m tr) _ => Some (t, m, tr)
              | _ => None
              end) l.

Definition visualize_calls (l : list Event) : list VisualizeArgs :=
  omap (λ ev, match ev with
              | Called (call_visualize a) _ => Some a
              | _ => None
              end) l.

Definition warnings_of (l : list Event) : list (WarningCategory * string) :=
  omap (λ ev, match ev with
              | Warned c msg => Some (c, msg)
              | _ => None
              end) l.

(** The exceptions collaborators raised during a run, in order. *)
Definition raised_in (l : list Event) : list PyObj :=
  omap (λ ev, match ev with
              | Called _ (Some exc) => Some exc
              | _ => None
              end) l.

(** ** Calling the file's functions by name *)

(** The sixteen functions that run the shared pipeline. *)
Inductive EntryPoint :=
| fn_classify_random_forest
| fn_classify_extra_trees
| fn_classify_adaboost
| fn_classify_gradient_boosting
| fn_regress_random_forest
| fn_regress_extra_trees
| fn_regress_adaboost
| fn_regress_gradient_boosting
| fn_classify_linearSVC
| fn_classify_SVC
| fn_regress_SVR
| fn_regress_ridge
| fn_regress_lasso
| fn_regress_elasticnet
| fn_classify_kneighbors
| fn_regress_kneighbors.

Definition entry_name (f : EntryPoint) : string :=
  match f with
  | fn_classify_random_forest => "classify_random_forest"
  | fn_classify_extra_trees => "classify_extra_trees"
  | fn_classify_adaboost => "classify_adaboost"
  | fn_classify_gradient_boosting => "classify_gradient_boosting"
  | fn_regress_random_forest => "regress_random_forest"
  | fn_regress_extra_trees => "regress_extra_trees"
  | fn_regress_adaboost => "regress_adaboost"
  | fn_regress_gradient_boosting => "regress_gradient_boosting"
  | fn_classify_linearSVC => "classify_linearSVC"
  | fn_classify_SVC => "classify_SVC"
  | fn_regress_SVR => "regress_SVR"
  | fn_regress_ridge => "regress_ridge"
  | fn_regress_lasso => "regress_lasso"
  | fn_regress_elasticnet => "regress_elasticnet"
  | fn_classify_kneighbors => "classify_kneighbors"
  | fn_regress_kneighbors => "regress_kneighbors"
  end.

(** The keyword arguments a caller may supply; each entry point reads the
    ones its signature has. *)
Record Args := {
  arg_output_dir : string;
  arg_table : Table;
  arg_metadata : Metadata;
  arg_category : string;
  arg_test_size : float;
  arg_step : float;
  arg_cv : Z;
  arg_random_state : option Z;
  arg_n_jobs : Z;
  arg_n_estimators : Z;
  arg_optimize_feature_selection : bool;
  arg_parameter_tuning : bool;
  arg_kernel : string;
  arg_solver : string;
  arg_algorithm : string }.

(** What a call of one of the file's functions evaluates to. *)
Inductive PyRet :=
| RetNone
| RetObj (o : PyObj)
| RetPair (calc_feature_importance optimize_feature_selection : bool).

(** A call of any function defined in the file. *)
Inductive Invocation :=
| pipeline_call (f : EntryPoint) (a : Args)
| classify_new_data_call (table : Table) (estimator : Estimator)
| svm_set_call (kernel : string) (optimize_feature_selection : bool)
| warn_feature_selection_call.

Section Dispatch.
Context {env : Collaborators}.

Definition call_entry (f : EntryPoint) (a : Args) : M unit :=
  match f with
  | fn_classify_random_forest =>
    classify_random_forest (arg_output_dir a) (arg_table a) (arg_metadata a)
      (arg_category a) (arg_test_size a) (arg_step a) (arg_cv a)
      (arg_random_state a) (arg_n_jobs a) (arg_n_estimators a)
      (arg_optimize_feature_selection a) (arg_parameter_tuning a)
  | fn_classify_extra_trees =>
    classify_extra_trees (arg_output_dir a) (arg_table a) (arg_metadata a)
      (arg_category a) (arg_test_size a) (arg_step a) (arg_cv a)
      (arg_random_state a) (arg_n_jobs a) (arg_n_estimators a)
      (arg_optimize_feature_selection a) (arg_parameter_tuning a)
  | fn_classify_adaboost =>
    classify_adaboost (arg_output_dir a) (arg_table a) (arg_metadata a)
      (arg_category a) (arg_test_size a) (arg_step a) (arg_cv a)
      (arg_random_state a) (arg_n_jobs a) (arg_n_estimators a)
      (arg_optimize_feature_selection a) (arg_parameter_tuning a)
  | fn_classify_gradient_boosting =>
    classify_gradient_boosting (arg_output_dir a) (arg_table a) (arg_metadata a)
      (arg_category a) (arg_test_size a) (arg_step a) (arg_cv a)
      (arg_random_state a) (arg_n_jobs a) (arg_n_estimators a)
      (arg_optimize_feature_selection a) (arg_parameter_tuning a)
  | fn_regress_random_forest =>
    regress_random_forest (arg_output_dir a) (arg_table a) (arg_metadata a)
      (arg_category a) (arg_test_size a) (arg_step a) (arg_cv a)
      (arg_random_state a) (arg_n_jobs a) (arg_n_estimators a)
      (arg_optimize_feature_selection a) (arg_parameter_tuning a)
  | fn_regress_extra_trees =>
    regress_extra_trees (arg_output_dir a) (arg_table a) (arg_metadata a)
      (arg_category a) (arg_test_size a) (arg_step a) (arg_cv a)
      (arg_random_state a) (arg_n_jobs a) (arg_n_estimators a)
      (arg_optimize_feature_selection a) (arg_parameter_tuning a)
  | fn_regress_adaboost =>
    regress_adaboost (arg_output_dir a) (arg_table a) (arg_metadata a)
      (arg_category a) (arg_test_size a) (arg_step a) (arg_cv a)
      (arg_random_state a) (arg_n_jobs a) (arg_n_estimators a)
      (arg_optimize_feature_selection a) (arg_parameter_tuning a)
  | fn_regress_gradient_boosting =>
    regress_gradient_boosting (arg_output_dir a) (arg_table a) (arg_metadata a)
      (arg_category a) (arg_test_size a) (arg_step a) (arg_cv a)
      (arg_random_state a) (arg_n_jobs a) (arg_n_estimators a)
      (arg_optimize_feature_selection a) (arg_parameter_tuning a)
  | fn_classify_linearSVC =>
    classify_linearSVC (arg_output_dir a) (arg_table a) (arg_metadata a)
      (arg_category a) (arg_test_size a) (arg_step a) (arg_cv a)
      (arg_random_state a) (arg_n_jobs a) 
      (arg_parameter_tuning a) (arg_optimize_feature_selection a)
  | fn_classify_SVC =>
    classify_SVC (arg_output_dir a) (arg_table a) (arg_metadata a)
      (arg_category a) (arg_test_size a) (arg_step a) (arg_cv a)
      (arg_random_state a) (arg_n_jobs a) 
      (arg_parameter_tuning a) (arg_optimize_feature_selection a)
      (arg_kernel a)
  | fn_regress_SVR =>
    regress_SVR (arg_output_dir a) (arg_table a) (arg_metadata a)
      (arg_category a) (arg_test_size a) (arg_step a) (arg_cv a)
      (arg_random_state a) (arg_n_jobs a) 
      (arg_parameter_tuning a) (arg_optimize_feature_selection a)
      (arg_kernel a)
  | fn_regress_ridge =>
    regress_ridge (arg_output_dir a) (arg_table a) (arg_metadata a)
      (arg_category a) (arg_test_size a) (arg_step a) (arg_cv a)
      (arg_random_state a) (arg_n_jobs a) 
      (arg_parameter_tuning a) (arg_optimize_feature_selection a)
      (arg_solver a)
  | fn_regress_lasso =>
    regress_lasso (arg_output_dir a) (arg_table a) (arg_metadata a)
      (arg_category a) (arg_test_size a) (arg_step a) (arg_cv a)
      (arg_random_state a) (arg_n_jobs a) 
      (arg_optimize_feature_selection a) (arg_parameter_tuning a)
  | fn_regress_elasticnet =>
    regress_elasticnet (arg_output_dir a) (arg_table a) (arg_metadata a)
      (arg_category a) (arg_test_size a) (arg_step a) (arg_cv a)
      (arg_random_state a) (arg_n_jobs a) 
      (arg_optimize_feature_selection a) (arg_parameter_tuning a)
  | fn_classify_kneighbors =>
    classify_kneighbors (arg_output_dir a) (arg_table a) (arg_metadata a)
      (arg_category a) (arg_test_size a) (arg_step a) (arg_cv a)
      (arg_random_state a) (arg_n_jobs a) 
      (arg_parameter_tuning a) (arg_algorithm a)
  | fn_regress_kneighbors =>
    regress_kneighbors (arg_output_dir a) (arg_table a) (arg_metadata a)
      (arg_category a) (arg_test_size a) (arg_step a) (arg_cv a)
      (arg_random_state a) (arg_n_jobs a) 
      (arg_parameter_tuning a) (arg_algorithm a)
  end.

(** A function body that ends without [return] evaluates to [None]. *)
Definition run_invocation (i : Invocation) : M PyRet :=
  match i with
  | pipeline_call f a => call_entry f a;; mret RetNone
  | classify_new_data_call table estimator =>
      predictions ← classify_new_data table estimator;
      mret (RetObj predictions)
  | svm_set_call kernel optimize_feature_selection =>
      '(calc, opt) ← svm_set kernel optimize_feature_selection;
      mret (RetPair calc opt)
  | warn_feature_selection_call => warn_feature_selection;; mret RetNone
  end.

End Dispatch.

(** ** A concrete world

    Every collaborator returns, and hands out fresh object references from a
    counter. *)
Definition fresh_world : Collaborators := {|
  World := N;
  ext_load_data _ _ _ w := (Returned (Obj w, Obj (w + 1)), (w + 2)%N);
  ext_getitem _ _ w := (Returned (Obj w), (w + 1)%N);
  ext_tune_parameters _ w := (Returned (ExternalEstimator (Obj w)), (w + 1)%N);
  ext_split_optimize_classify _ w :=
    (Returned (ExternalEstimator (Obj w), Obj (w + 1), Obj (w + 2),
               Obj (w + 3)), (w + 4)%N);
  ext_visualize _ w := (Returned (), w);
  ext_predict _ _ w := (Returned (Obj w), (w + 1)%N) |}.

(** A world whose data loader always fails. *)
Definition broken_loader : Collaborators := {|
  World := N;
  ext_load_data _ _ _ w := (Threw (Obj w), (w + 1)%N);
  ext_getitem _ _ w := (Returned (Obj w), (w + 1)%N);
  ext_tune_parameters _ w := (Returned (ExternalEstimator (Obj w)), (w + 1)%N);
  ext_split_optimize_classify _ w :=
    (Returned (ExternalEstimator (Obj w), Obj (w + 1), Obj (w + 2),
               Obj (w + 3)), (w + 4)%N);
  ext_visualize _ w := (Returned (), w);
  ext_predict _ _ w := (Returned (Obj w), (w + 1)%N) |}.

Definition sample_args : Args := {|
  arg_output_dir := "report";
  arg_table := BiomTable 1;
  arg_metadata := QiimeMetadata 2;
  arg_category := "body-site";
  arg_test_size := 0.2%float;
  arg_step := 0.05%float;
  arg_cv := 5;
  arg_random_state := None;
  arg_n_jobs := 1;
  arg_n_estimators := 100;
  arg_optimize_feature_selection := true;
  arg_parameter_tuning := true;
  arg_kernel := "rbf";
  arg_solver := "auto";
  arg_algorithm := "auto" |}.

(** ** Symbolic execution *)

Ltac unfold_run :=
  unfold exec, classify_new_data, svm_set, warn_feature_selection,
    load_data, getitem, tune_parameters, split_optimize_classify, visualize,
    predict, invoke, warnings_warn, lift;
  unfold mbind, mret, M_bind, M_ret; simpl.

Ltac case_collaborator :=
  match goal with
  | |- context [ext_split_optimize_classify ?a ?w] =>
      destruct (ext_split_optimize_classify a w)
        as [[[[[? ?] ?] ?]|?] ?] eqn:?
  | |- context [ext_visualize ?a ?w] =>
      destruct (ext_visualize a w) as [[[]|?] ?] eqn:?
  | |- context [ext_tune_parameters ?a ?w] =>
      destruct (ext_tune_parameters a w) as [[?|?] ?] eqn:?
  | |- context [ext_getitem ?o ?k ?w] =>
      destruct (ext_getitem o k w) as [[?|?] ?] eqn:?
  | |- context [ext_load_data ?t ?m ?b ?w] =>
      destruct (ext_load_data t m b w) as [[[? ?]|?] ?] eqn:?
  | |- context [ext_predict ?e ?t ?w] =>
      destruct (ext_predict e t w) as [[?|?] ?] eqn:?
  end; simpl.

(** Two equations on the same collaborator call give the same outcome. *)
Ltac same_outcome :=
  repeat match goal with
         | H1 : ?call = _, H2 : ?call = _ |- _ =>
             rewrite H1 in H2; simplify_eq
         end.


(** * Properties *)

(** The comprehension shared by the boosting entry points never raises and
    drops exactly the ["bootstrap"] entry. *)
Lemma boosting_comprehension :
  dict_comprehension (keys ensemble_params)
    (λ k, bool_decide (k ≠ "bootstrap"))
    (λ k, dict_getitem ensemble_params k) ∅
  = Ok (delete "bootstrap" ensemble_params).
Proof. reflexivity. Qed.



Ltac run_entry := unfold_run; rewrite ?boosting_comprehension; simpl.

Section SupportVectorMachines.
Context {env : Collaborators}.

(** [svm_set] on a kernel other than ['linear']: both flags come back false
    and the warning is issued, whatever the caller asked for. *)
Lemma svm_set_nonlinear kernel optimize_feature_selection s :
  kernel ≠ "linear" →
  svm_set kernel optimize_feature_selection s
  = (Ok (false, false),
     {| world := world s;
        log := log s ++ [Warned UserWarning
                           recursive_feature_extraction_warning] |}).
Proof.
  intros Hk. unfold svm_set. rewrite bool_decide_eq_false_2 by done.
  reflexivity.
Qed.

(** [svm_set] on the ['linear'] kernel: silent, and the caller's flag is
    handed back. *)
Lemma svm_set_linear optimize_feature_selection s :
  svm_set "linear" optimize_feature_selection s
  = (Ok (true, optimize_feature_selection), s).
Proof. reflexivity. Qed.

(** The shape of a run in which feature selection was switched off. *)
Definition feature_selection_disabled (l : list Event) : Prop :=
  ∃ a raised rest,
    l = Warned UserWarning recursive_feature_extraction_warning
          :: Called (call_split_optimize_classify a) raised :: rest ∧
    soc_optimize_feature_selection a = false ∧
    soc_calc_feature_importance a = false ∧
    soc_calls l = [a] ∧
    warnings_of l = [(UserWarning, recursive_feature_extraction_warning)].

(** C1. A call of [classify_SVC] or [regress_SVR] with a kernel other than
    ['linear'] first issues a [UserWarning] saying that the estimator does
    not support recursive feature extraction with the parameter settings
    requested, and then calls [split_optimize_classify] with
    [optimize_feature_selection=False] and [calc_feature_importance=False],
    whatever value of [optimize_feature_selection] the caller supplied. *)
Theorem nonlinear_kernel_disables_feature_selection
    output_dir table metadata category test_size step cv random_state n_jobs
    parameter_tuning optimize_feature_selection kernel w :
  kernel ≠ "linear" →
  feature_selection_disabled
    (log (exec (classify_SVC output_dir table metadata category test_size
                  step cv random_state n_jobs parameter_tuning
                  optimize_feature_selection kernel) w).2) ∧
  feature_selection_disabled
    (log (exec (regress_SVR output_dir table metadata category test_size
                  step cv random_state n_jobs parameter_tuning
                  optimize_feature_selection kernel) w).2) ∧
  String.prefix
    ("This estimator does not support recursive feature extraction " ++
     "with the parameter settings requested.")
    recursive_feature_extraction_warning = true.
Proof.
  intros Hk. unfold feature_selection_disabled.
  split; [|split; [|reflexivity]].
  - unfold classify_SVC, exec, mbind, M_bind.
    rewrite svm_set_nonlinear by done. run_entry.
    repeat case_collaborator; eauto 10.
  - unfold regress_SVR, exec, mbind, M_bind.
    rewrite svm_set_nonlinear by done. run_entry.
    repeat case_collaborator; eauto 10.
Qed.

(** The shape of a run on the linear kernel. *)
Definition feature_selection_kept (requested : bool) (l : list Event)
  : Prop :=
  ∃ a raised rest,
    l = Called (call_split_optimize_classify a) raised :: rest ∧
    soc_calc_feature_importance a = true ∧
    soc_optimize_feature_selection a = requested ∧
    soc_calls l = [a] ∧
    warnings_of l = [].

(** C4. A call of [classify_SVC] or [regress_SVR] with kernel ['linear']
    calls [split_optimize_classify] with [calc_feature_importance=True] and
    with the caller's [optimize_feature_selection] unchanged, and issues no
    warning. *)
Theorem linear_kernel_keeps_feature_selection
    output_dir table metadata category test_size step cv random_state n_jobs
    parameter_tuning optimize_feature_selection w :
  feature_selection_kept optimize_feature_selection
    (log (exec (classify_SVC output_dir table metadata category test_size
                  step cv random_state n_jobs parameter_tuning
                  optimize_feature_selection "linear") w).2) ∧
  feature_selection_kept optimize_feature_selection
    (log (exec (regress_SVR output_dir table metadata category test_size
                  step cv random_state n_jobs parameter_tuning
                  optimize_feature_selection "linear") w).2).
Proof.
  unfold feature_selection_kept. split.
  - unfold classify_SVC. run_entry. repeat case_collaborator; eauto 10.
  - unfold regress_SVR. run_entry. repeat case_collaborator; eauto 10.
Qed.

End SupportVectorMachines.

(** The concrete run behind C1: an ['rbf'] kernel with feature selection
    requested. *)
Lemma nonlinear_kernel_run :
  "rbf" ≠ "linear" ∧
  feature_selection_disabled
    (log (exec (env := fresh_world)
            (classify_SVC "report" (BiomTable 1) (QiimeMetadata 2)
               "body-site" 0.2%float 0.05%float 5 None 1 false true "rbf")
            0%N).2).
Proof.
  split; [done|].
  apply (nonlinear_kernel_disables_feature_selection (env := fresh_world)
           "report" (BiomTable 1) (QiimeMetadata 2) "body-site"
           0.2%float 0.05%float 5 None 1 false true "rbf" 0%N).
  done.
Defined.

Section NearestNeighbours.
Context {env : Collaborators}.

(** The shape of a run of a nearest-neighbour entry point. *)
Definition feature_selection_off (l : list Event) : Prop :=
  ∃ a raised rest,
    l = Called (call_split_optimize_classify a) raised :: rest ∧
    soc_optimize_feature_selection a = false ∧
    soc_calc_feature_importance a = false ∧
    soc_calls l = [a] ∧
    Forall (λ v, vis_optimize_feature_selection v = false)
           (visualize_calls l) ∧
    (raised = None →
     ∃ v outcome, rest = [Called (call_visualize v) outcome] ∧
                  vis_optimize_feature_selection v = false).

(** C10. [classify_kneighbors] and [regress_kneighbors] pass
    [optimize_feature_selection=False] and [calc_feature_importance=False]
    to [split_optimize_classify] and [False] as the last argument of
    [visualize], for every value of every argument the caller supplies. *)
Theorem kneighbors_never_select_features
    output_dir table metadata category test_size step cv random_state n_jobs
    parameter_tuning algorithm w :
  feature_selection_off
    (log (exec (classify_kneighbors output_dir table metadata category
                  test_size step cv random_state n_jobs parameter_tuning
                  algorithm) w).2) ∧
  feature_selection_off
    (log (exec (regress_kneighbors output_dir table metadata category
                  test_size step cv random_state n_jobs parameter_tuning
                  algorithm) w).2).
Proof.
  unfold feature_selection_off. split.
  - unfold classify_kneighbors. run_entry.
    repeat case_collaborator;
      do 3 eexists; (split; [reflexivity|]);
      repeat split; try discriminate; repeat constructor; eauto.
  - unfold regress_kneighbors. run_entry.
    repeat case_collaborator;
      do 3 eexists; (split; [reflexivity|]);
      repeat split; try discriminate; repeat constructor; eauto.
Qed.

End NearestNeighbours.

Section NewData.
Context {env : Collaborators}.

(** C8. [classify_new_data] makes one call, [estimator.predict] on the table
    it was given, and returns that call's value (or lets its exception
    escape); the table is not touched before the prediction. *)
Theorem classify_new_data_is_predict table estimator w :
  exec (classify_new_data table estimator) w
  = match ext_predict estimator table w with
    | (Returned predictions, w') =>
        (Ok predictions,
         {| world := w';
            log := [Called (call_predict estimator table) None] |})
    | (Threw exc, w') =>
        (Raise (Propagated exc),
         {| world := w';
            log := [Called (call_predict estimator table) (Some exc)] |})
    end.
Proof. unfold_run. case_collaborator; reflexivity. Qed.

End NewData.

Section Boosting.
Context {env : Collaborators}.

(** What [parameter_tuning] decides in an AdaBoost entry point, for the base
    estimator [base] and the ensemble constructor [boost]. *)
Definition pretunes_base_iff_requested (parameter_tuning : bool)
    (table : Table) (metadata : Metadata) (category : string)
    (base : Estimator) (boost : Estimator → Estimator)
    (w : World) (l : list Event) : Prop :=
  (parameter_tuning = false →
   tune_calls l = [] ∧ load_calls l = [] ∧
   ∃ a, soc_calls l = [a] ∧ soc_estimator a = boost base) ∧
  (tune_calls l ≠ [] → parameter_tuning = true) ∧
  (parameter_tuning = true →
   (∃ raised rest,
      l = Called (call_load_data table metadata true) raised :: rest) ∧
   ∀ features targets w1 column w2,
     ext_load_data table metadata true w
       = (Returned (features, targets), w1) →
     ext_getitem targets category w1 = (Returned column, w2) →
     ∃ a, tune_calls l = [a] ∧ tp_estimator a = base ∧
          ∀ tuned w3,
            ext_tune_parameters a w2 = (Returned tuned, w3) →
            ∃ c, soc_calls l = [c] ∧ soc_estimator c = boost tuned) ∧
  Forall (λ a, soc_parameter_tuning a = false) (soc_calls l).

(** C2. [classify_adaboost] and [regress_adaboost] hand their base
    estimator to [tune_parameters] exactly when the caller's
    [parameter_tuning] is true: without it neither [load_data] nor
    [tune_parameters] is called and the ensemble wraps the fresh decision
    tree; with it the run starts with [load_data] and, once the data are
    loaded, tunes the decision tree and wraps the tuned estimator.  Every
    call of [split_optimize_classify] gets [parameter_tuning=False]. *)
Theorem adaboost_pretunes_base_iff_requested
    output_dir table metadata category test_size step cv random_state n_jobs
    n_estimators optimize_feature_selection parameter_tuning w :
  pretunes_base_iff_requested parameter_tuning table metadata category
    DecisionTreeClassifier (λ b, AdaBoostClassifier b n_estimators) w
    (log (exec (classify_adaboost output_dir table metadata category
                  test_size step cv random_state n_jobs n_estimators
                  optimize_feature_selection parameter_tuning) w).2) ∧
  pretunes_base_iff_requested parameter_tuning table metadata category
    DecisionTreeRegressor (λ b, AdaBoostRegressor b n_estimators) w
    (log (exec (regress_adaboost output_dir table metadata category
                  test_size step cv random_state n_jobs n_estimators
                  optimize_feature_selection parameter_tuning) w).2).
Proof.
  unfold pretunes_base_iff_requested.
  split.
  - unfold classify_adaboost. run_entry.
    destruct parameter_tuning; simpl;
      repeat case_collaborator;
      repeat split; try done; eauto;
      try (intros; simplify_eq; same_outcome;
           eexists; repeat split; try done;
           intros; simplify_eq; same_outcome; eauto);
      repeat constructor.
  - unfold regress_adaboost. run_entry.
    destruct parameter_tuning; simpl;
      repeat case_collaborator;
      repeat split; try done; eauto;
      try (intros; simplify_eq; same_outcome;
           eexists; repeat split; try done;
           intros; simplify_eq; same_outcome; eauto);
      repeat constructor.
Qed.

End Boosting.

(** The concrete run behind C2: tuning requested where every collaborator
    returns. *)
Lemma adaboost_pretuning_run :
  ∃ a c,
    tune_calls
      (log (exec (env := fresh_world)
              (classify_adaboost "report" (BiomTable 1) (QiimeMetadata 2)
                 "body-site" 0.2%float 0.05%float 5 None 1 100 false true)
              0%N).2) = [a] ∧
    tp_estimator a = DecisionTreeClassifier ∧
    soc_calls
      (log (exec (env := fresh_world)
              (classify_adaboost "report" (BiomTable 1) (QiimeMetadata 2)
                 "body-site" 0.2%float 0.05%float 5 None 1 100 false true)
              0%N).2) = [c] ∧
    soc_estimator c = AdaBoostClassifier (ExternalEstimator (Obj 3)) 100 ∧
    soc_parameter_tuning c = false.
Proof.
  destruct (adaboost_pretunes_base_iff_requested (env := fresh_world)
              "report" (BiomTable 1) (QiimeMetadata 2) "body-site"
              0.2%float 0.05%float 5 None 1 100 false true 0%N)
    as [(_ & _ & Htuned & Hfalse) _].
  destruct (Htuned eq_refl) as [_ Hloaded].
  destruct (Hloaded (Obj 0) (Obj 1) 2%N (Obj 2) 3%N eq_refl eq_refl)
    as (a & Hcalls & Hbase & Hwrap).
  assert (Ha : a = {| tp_features := Obj 0; tp_targets := Obj 2;
                      tp_estimator := DecisionTreeClassifier;
                      tp_param_dist := delete "bootstrap" ensemble_params;
                      tp_n_jobs := 1; tp_cv := 5;
                      tp_random_state := None |}).
  { vm_compute in Hcalls. injection Hcalls as <-. vm_compute. reflexivity. }
  destruct (Hwrap (ExternalEstimator (Obj 3)) 4%N) as (c & Hsoc & Hest).
  { rewrite Ha. reflexivity. }
  exists a, c. repeat split; try assumption.
  rewrite Hsoc in Hfalse. by inversion Hfalse.
Defined.

Section BoostingSearchSpace.
Context {env : Collaborators}.

(** The claim of C7 as it is worded, at one call: the [targets] value that
    [load_data] returned is itself the second argument of
    [tune_parameters]. *)
Definition tuned_on_loaded_targets (run : M unit) (table : Table)
    (metadata : Metadata) (n_jobs cv : Z) (random_state : option Z)
    (w : World) : Prop :=
  ∀ features targets w1,
    ext_load_data table metadata true w
      = (Returned (features, targets), w1) →
    ∃ a, a ∈ tune_calls (log (exec run w).2) ∧
         tp_features a = features ∧
         tp_targets a = targets ∧
         tp_param_dist a = delete "bootstrap" ensemble_params ∧
         tp_n_jobs a = n_jobs ∧ tp_cv a = cv ∧
         tp_random_state a = random_state.

(** C7, amended.  With [parameter_tuning] true, once
    [load_data(table, metadata, transpose=True)] has returned
    [(features, targets)] and [targets[category]] has been read,
    [tune_parameters] is called once, with [features] first, the column
    [targets[category]] second, the fresh decision tree third, and the
    function's [param_dist], [n_jobs], [cv] and [random_state]. *)
Theorem adaboost_tunes_on_category_column
    output_dir table metadata category test_size step cv random_state n_jobs
    n_estimators optimize_feature_selection w features targets w1 column w2 :
  ext_load_data table metadata true w = (Returned (features, targets), w1) →
  ext_getitem targets category w1 = (Returned column, w2) →
  tune_calls
    (log (exec (classify_adaboost output_dir table metadata category
                  test_size step cv random_state n_jobs n_estimators
                  optimize_feature_selection true) w).2)
  = [{| tp_features := features; tp_targets := column;
        tp_estimator := DecisionTreeClassifier;
        tp_param_dist := delete "bootstrap" ensemble_params;
        tp_n_jobs := n_jobs; tp_cv := cv;
        tp_random_state := random_state |}] ∧
  tune_calls
    (log (exec (regress_adaboost output_dir table metadata category
                  test_size step cv random_state n_jobs n_estimators
                  optimize_feature_selection true) w).2)
  = [{| tp_features := features; tp_targets := column;
        tp_estimator := DecisionTreeRegressor;
        tp_param_dist := delete "bootstrap" ensemble_params;
        tp_n_jobs := n_jobs; tp_cv := cv;
        tp_random_state := random_state |}].
Proof.
  intros Hload Hcol. split.
  - unfold classify_adaboost. run_entry. rewrite Hload. simpl.
    rewrite Hcol. simpl. repeat case_collaborator; reflexivity.
  - unfold regress_adaboost. run_entry. rewrite Hload. simpl.
    rewrite Hcol. simpl. repeat case_collaborator; reflexivity.
Qed.



End BoostingSearchSpace.

(** C7 as worded fails: where the column read from [targets] is a different
    object from [targets], the second argument of [tune_parameters] is the
    column. *)
Lemma tuned_on_column_not_on_targets :
  ¬ tuned_on_loaded_targets (env := fresh_world)
      (classify_adaboost "report" (BiomTable 1) (QiimeMetadata 2)
         "body-site" 0.2%float 0.05%float 5 None 1 100 false true)
      (BiomTable 1) (QiimeMetadata 2) 1 5 None 0%N.
Proof.
  intros Hclaim.
  destruct (Hclaim (Obj 0) (Obj 1) 2%N eq_refl) as (a & Hin & _ & Htargets & _).
  vm_compute in Hin.
  apply list_elem_of_singleton in Hin. subst a. discriminate Htargets.
Qed.

(** The concrete run behind the amended C7. *)
Lemma adaboost_tuning_arguments_run :
  tune_calls
    (log (exec (env := fresh_world)
            (classify_adaboost "report" (BiomTable 1) (QiimeMetadata 2)
               "body-site" 0.2%float 0.05%float 5 None 1 100 false true)
            0%N).2)
  = [{| tp_features := Obj 0; tp_targets := Obj 2;
        tp_estimator := DecisionTreeClassifier;
        tp_param_dist := delete "bootstrap" ensemble_params;
        tp_n_jobs := 1; tp_cv := 5; tp_random_state := None |}].
Proof.
  apply (adaboost_tunes_on_category_column (env := fresh_world)
           "report" (BiomTable 1) (QiimeMetadata 2) "body-site"
           0.2%float 0.05%float 5 None 1 100 false 0%N
           (Obj 0) (Obj 1) 2%N (Obj 2) 3%N eq_refl eq_refl).
Defined.

(** The calls an AdaBoost entry point makes on its own before it enters the
    pipeline. *)
Definition is_tuning_step (c : Call) : Prop :=
  match c with
  | call_load_data _ _ _ | call_getitem _ _ | call_tune_parameters _ => True
  | _ => False
  end.

(** A run of entry point [f] enters the pipeline: its log holds exactly one
    call of [split_optimize_classify], and that call satisfies [P].  The only
    runs that stop short of it are those of the AdaBoost entry points with
    [parameter_tuning] true in which a call made for the tuning raised: that
    call is then the last of the log and its exception the result. *)
Definition enters_pipeline_with (P : SplitOptimizeClassifyArgs → Prop)
    (f : EntryPoint) (a : Args) (r : Result unit) (l : list Event) : Prop :=
  (∃ c, soc_calls l = [c] ∧ P c) ∨
  ((f = fn_classify_adaboost ∨ f = fn_regress_adaboost) ∧
   arg_parameter_tuning a = true ∧
   soc_calls l = [] ∧
   ∃ step exc,
     last l = Some (Called step (Some exc)) ∧
     is_tuning_step step ∧
     r = Raise (Propagated exc)).

(** Settle [enters_pipeline_with] on a run that has been executed. *)
Ltac settle_pipeline_entry :=
  first
    [ left; eexists; split; [reflexivity|]
    | right; split; [auto|]; split; [reflexivity|]; split; [reflexivity|];
      do 2 eexists; split; [reflexivity|]; split; [exact I|reflexivity] ].

Section Catalogue.
Context {env : Collaborators}.

Ltac run_any :=
  unfold run_invocation, call_entry,
    classify_random_forest, classify_extra_trees, classify_adaboost,
    classify_gradient_boosting, regress_random_forest, regress_extra_trees,
    regress_adaboost, regress_gradient_boosting, classify_linearSVC,
    classify_SVC, regress_SVR, regress_ridge, regress_lasso,
    regress_elasticnet, classify_kneighbors, regress_kneighbors;
  run_entry;
  repeat match goal with
         | |- context [arg_parameter_tuning ?a] =>
             destruct (arg_parameter_tuning a); simpl
         | |- context [bool_decide (?k = "linear")] =>
             destruct (bool_decide (k = "linear")); simpl
         end;
  repeat case_collaborator.

(** The scoring path an entry point takes, read off its name. *)
Definition selects_scoring_path (f : EntryPoint)
    (c : SplitOptimizeClassifyArgs) : Prop :=
  if String.prefix "classify_" (entry_name f)
  then estimator_kind (soc_estimator c) = Classifier ∧
       soc_scoring c = None ∧ soc_classification c = None
  else estimator_kind (soc_estimator c) = Regressor ∧
       soc_scoring c = Some mean_squared_error ∧
       soc_classification c = Some false.

(** C3. Every [classify_*] entry point of the pipeline builds a classifier
    and calls [split_optimize_classify] without [scoring] or
    [classification]; every [regress_*] entry point builds a regressor and
    passes [scoring=mean_squared_error] and [classification=False].  The call
    is made exactly once in every run; the only runs without it are those of
    the AdaBoost entry points in which [load_data], [targets[category]] or
    [tune_parameters] raised during the requested tuning. *)
Theorem entry_points_select_scoring_path (f : EntryPoint) (a : Args)
    (w : World) :
  (String.prefix "classify_" (entry_name f) = true ∨
   String.prefix "regress_" (entry_name f) = true) ∧
  enters_pipeline_with (selects_scoring_path f) f a
    (exec (call_entry f a) w).1 (log (exec (call_entry f a) w).2).
Proof.
  unfold enters_pipeline_with.
  destruct f; (split; [simpl; auto|]).
  all: run_any.
  all: settle_pipeline_entry.
  all: unfold selects_scoring_path; simpl; auto.
Qed.



(** How a run may end: normally, with no exception raised along the way, or
    with the exception of the last collaborator call, the only one raised. *)
Definition propagates_only {A} (r : Result A) (l : list Event) : Prop :=
  match r with
  | Ok _ => raised_in l = []
  | Raise e =>
      ∃ exc c, e = Propagated exc ∧
               last l = Some (Called c (Some exc)) ∧
               raised_in l = [exc]
  end.

(** C6. No function of the file raises an exception of its own or catches
    one: a call either completes, and then no collaborator raised, or ends
    with the exception of the collaborator call it made last, unchanged.
    The only warning the file issues is the [UserWarning] on recursive
    feature extraction, and issuing it does not end the call. *)
Theorem failures_come_from_collaborators (i : Invocation) (w : World) :
  propagates_only (exec (run_invocation i) w).1
                  (log (exec (run_invocation i) w).2) ∧
  Forall (λ wn, wn = (UserWarning, recursive_feature_extraction_warning))
         (warnings_of (log (exec (run_invocation i) w).2)) ∧
  (exec (run_invocation warn_feature_selection_call) w).1 = Ok RetNone.
Proof.
  unfold propagates_only.
  destruct i as [f a| | |]; [destruct f| | |].
  all: run_any.
  all: split; [eauto|split; [repeat constructor|reflexivity]].
Qed.

End Catalogue.



(** * Concrete runs *)

(** A non-linear kernel: the flags come back false and the warning is in
    the log. *)
Example svm_set_rbf :
  exec (env := fresh_world) (svm_set "rbf" true) 0%N
  = (Ok (false, false),
     @Build_State fresh_world 0%N
       [Warned UserWarning recursive_feature_extraction_warning]).
Proof. reflexivity. Qed.

Example svm_set_linear_kernel :
  exec (env := fresh_world) (svm_set "linear" true) 0%N
  = (Ok (true, true), @Build_State fresh_world 0%N []).
Proof. reflexivity. Qed.

(** When [load_data] raises, [classify_adaboost] ends there with the same
    exception: nothing is tuned and the pipeline is not entered. *)
Example adaboost_with_broken_loader :
  exec (env := broken_loader)
    (classify_adaboost "report" (BiomTable 1) (QiimeMetadata 2) "body-site"
       0.2%float 0.05%float 5 None 1 100 false true) 0%N
  = (Raise (Propagated (Obj 0)),
     @Build_State broken_loader 1%N
       [Called (call_load_data (BiomTable 1) (QiimeMetadata 2) true)
               (Some (Obj 0))]).
Proof. reflexivity. Qed.

(** Without tuning the loader is never consulted, so the same world runs
    the entry point to its end. *)
Example adaboost_without_tuning :
  (exec (env := broken_loader)
     (classify_adaboost "report" (BiomTable 1) (QiimeMetadata 2) "body-site"
        0.2%float 0.05%float 5 None 1 100 false false) 0%N).1
  = Ok ().
Proof. reflexivity. Qed.

(** A nearest-neighbour run: one pipeline call, then the report. *)
Example kneighbors_run :
  visualize_calls
    (log (exec (env := fresh_world)
            (regress_kneighbors "report" (BiomTable 1) (QiimeMetadata 2)
               "ph" 0.2%float 0.05%float 5 (Some 7%Z) 1 true "kd_tree")
            0%N).2)
  = [{| vis_output_dir := "report";
        vis_estimator := ExternalEstimator (Obj 0);
        vis_cm := Obj 1; vis_accuracy := Obj 2; vis_importances := Obj 3;
        vis_optimize_feature_selection := false |}].
Proof. reflexivity. Qed.

Example classify_new_data_run :
  exec (env := fresh_world)
    (classify_new_data (BiomTable 1) (SVC "linear")) 5%N
  = (Ok (Obj 5),
     @Build_State fresh_world 6%N
       [Called (call_predict (SVC "linear") (BiomTable 1)) None]).
Proof. reflexivity. Qed.

(** * The catalogue as a whole

    What holds of every pipeline entry point beyond the forwarding of single
    flags: which arguments reach the pipeline untouched, when the report is
    written, and what the search space depends on. *)

Ltac run_catalogue :=
  unfold run_invocation, call_entry,
    classify_random_forest, classify_extra_trees, classify_adaboost,
    classify_gradient_boosting, regress_random_forest, regress_extra_trees,
    regress_adaboost, regress_gradient_boosting, classify_linearSVC,
    classify_SVC, regress_SVR, regress_ridge, regress_lasso,
    regress_elasticnet, classify_kneighbors, regress_kneighbors;
  run_entry;
  repeat match goal with
         | |- context [arg_parameter_tuning ?a] =>
             destruct (arg_parameter_tuning a); simpl
         | |- context [bool_decide (?k = "linear")] =>
             destruct (bool_decide (k = "linear")); simpl
         end;
  repeat case_collaborator.

(** The pipeline calls of a log that returned. *)
Definition pipeline_returns (l : list Event)
  : list SplitOptimizeClassifyArgs :=
  omap (λ ev, match ev with
              | Called (call_split_optimize_classify a) None => Some a
              | _ => None
              end) l.

Definition is_adaboost (f : EntryPoint) : bool :=
  match f with
  | fn_classify_adaboost | fn_regress_adaboost => true
  | _ => false
  end.

(** Whether the estimator an entry point builds exposes feature weights:
    nearest neighbours never do, support vector machines only on the linear
    kernel. *)
Definition exposes_feature_weights (f : EntryPoint) (a : Args) : bool :=
  match f with
  | fn_classify_kneighbors | fn_regress_kneighbors => false
  | fn_classify_SVC | fn_regress_SVR =>
      bool_decide (arg_kernel a = "linear")
  | _ => true
  end.

Section WholeCatalogue.
Context {env : Collaborators}.

(** The data, the target and the resampling settings of a call, as the
    pipeline receives them. *)
Definition forwards_common_arguments (a : Args)
    (c : SplitOptimizeClassifyArgs) : Prop :=
  soc_table c = arg_table a ∧ soc_metadata c = arg_metadata a ∧
  soc_category c = arg_category a ∧ soc_output_dir c = arg_output_dir a ∧
  soc_test_size c = arg_test_size a ∧ soc_step c = arg_step a ∧
  soc_cv c = arg_cv a ∧ soc_random_state c = arg_random_state a ∧
  soc_n_jobs c = arg_n_jobs a.

(** X1. Every pipeline entry point calls [split_optimize_classify] exactly
    once and hands it [table], [metadata], [category], [output_dir],
    [test_size], [step], [cv], [random_state] and [n_jobs] exactly as the
    caller supplied them; only an AdaBoost run whose tuning raised ends
    before that call. *)
Theorem common_arguments_reach_pipeline (f : EntryPoint) (a : Args)
    (w : World) :
  enters_pipeline_with (forwards_common_arguments a) f a
    (exec (call_entry f a) w).1 (log (exec (call_entry f a) w).2).
Proof.
  unfold enters_pipeline_with, forwards_common_arguments.
  destruct f; run_catalogue; settle_pipeline_entry; repeat split.
Qed.

(** X2. Whenever an entry point calls [visualize], it passes the caller's
    [output_dir], the very four values [split_optimize_classify] returned
    (fitted estimator, confusion or error artefact, score, importances), and
    the same [optimize_feature_selection] flag the pipeline was given. *)
Theorem report_shows_pipeline_results (f : EntryPoint) (a : Args)
    (w : World) :
  Forall
    (λ v, vis_output_dir v = arg_output_dir a ∧
          ∃ c w1 w2,
            soc_calls (log (exec (call_entry f a) w).2) = [c] ∧
            vis_optimize_feature_selection v
              = soc_optimize_feature_selection c ∧
            ext_split_optimize_classify c w1
              = (Returned (vis_estimator v, vis_cm v, vis_accuracy v,
                           vis_importances v), w2))
    (visualize_calls (log (exec (call_entry f a) w).2)).
Proof.
  destruct f; run_catalogue; repeat constructor;
    do 3 eexists; (split; [reflexivity|]); (split; [reflexivity|]);
    simpl; eassumption.
Qed.

(** The report, if any, is the last action and directly follows a pipeline
    call that returned. *)
Definition report_follows_pipeline (l : list Event) : Prop :=
  match visualize_calls l with
  | [] => True
  | [v] =>
      ∃ c outcome rest,
        reverse l = Called (call_visualize v) outcome
                      :: Called (call_split_optimize_classify c) None :: rest
  | _ => False
  end.

(** X3. In every run of an entry point the pipeline is called at most once,
    and [visualize] is called exactly when the pipeline call has returned:
    once, directly after it, as the last action.  No report is written when
    [split_optimize_classify] raises or is never reached. *)
Theorem report_only_after_pipeline (f : EntryPoint) (a : Args) (w : World) :
  (length (soc_calls (log (exec (call_entry f a) w).2)) ≤ 1)%nat ∧
  length (visualize_calls (log (exec (call_entry f a) w).2))
  = length (pipeline_returns (log (exec (call_entry f a) w).2)) ∧
  report_follows_pipeline (log (exec (call_entry f a) w).2).
Proof.
  unfold report_follows_pipeline.
  destruct f; run_catalogue;
    (split; [simpl; lia|]); (split; [reflexivity|]);
    simpl; try exact I; do 3 eexists; reflexivity.
Qed.

(** X4. Every entry point except the two AdaBoost ones forwards the caller's
    [parameter_tuning] unchanged, and calls neither [load_data] nor
    [tune_parameters] itself: the search is left to the pipeline. *)
Theorem tuning_is_left_to_pipeline (f : EntryPoint) (a : Args) (w : World) :
  is_adaboost f = false →
  (∃ c, soc_calls (log (exec (call_entry f a) w).2) = [c] ∧
        soc_parameter_tuning c = arg_parameter_tuning a) ∧
  tune_calls (log (exec (call_entry f a) w).2) = [] ∧
  load_calls (log (exec (call_entry f a) w).2) = [].
Proof.
  intros Hf. destruct f; try discriminate Hf; clear Hf.
  all: unfold call_entry,
    classify_random_forest, classify_extra_trees,
    classify_gradient_boosting, regress_random_forest, regress_extra_trees,
    regress_gradient_boosting, classify_linearSVC,
    classify_SVC, regress_SVR, regress_ridge, regress_lasso,
    regress_elasticnet, classify_kneighbors, regress_kneighbors;
    run_entry;
    repeat match goal with
           | |- context [bool_decide (?k = "linear")] =>
               destruct (bool_decide (k = "linear")); simpl
           end;
    repeat case_collaborator; eauto.
Qed.

(** X5. Across the catalogue, the one pipeline call of a run gets
    [calc_feature_importance] true exactly for the estimators that expose
    feature weights (all but nearest neighbours and support vector machines
    on a non-linear kernel), and [optimize_feature_selection] as the caller's
    value for those and as [False] for the others; only an AdaBoost run whose
    tuning raised ends before that call. *)
Theorem feature_selection_needs_feature_weights (f : EntryPoint) (a : Args)
    (w : World) :
  enters_pipeline_with
    (λ c, soc_calc_feature_importance c = exposes_feature_weights f a ∧
          soc_optimize_feature_selection c
          = exposes_feature_weights f a && arg_optimize_feature_selection a)
    f a (exec (call_entry f a) w).1 (log (exec (call_entry f a) w).2).
Proof.
  unfold enters_pipeline_with.
  destruct f; run_catalogue; settle_pipeline_entry; split; reflexivity.
Qed.

(** X6. A warning is issued only by [classify_SVC] and [regress_SVR] on a
    non-linear kernel: then it is the one [UserWarning] on recursive feature
    extraction and the first thing the call does.  Every other call is
    silent. *)
Theorem warning_only_for_nonlinear_svm (f : EntryPoint) (a : Args)
    (w : World) :
  match f with
  | fn_classify_SVC | fn_regress_SVR =>
      if bool_decide (arg_kernel a = "linear")
      then warnings_of (log (exec (call_entry f a) w).2) = []
      else ∃ rest,
             log (exec (call_entry f a) w).2
             = Warned UserWarning recursive_feature_extraction_warning
                 :: rest ∧
             warnings_of rest = []
  | _ => warnings_of (log (exec (call_entry f a) w).2) = []
  end.
Proof.
  destruct f; run_catalogue; try reflexivity; eexists; split; reflexivity.
Qed.

End WholeCatalogue.

(** X7. Each entry point has one search space of its own: whatever the
    collaborators do and whatever the caller supplies, it is the
    [param_dist] of the one pipeline call of the run and of every
    [tune_parameters] call; only an AdaBoost run whose tuning raised ends
    before the pipeline call. *)
Theorem search_space_is_fixed (f : EntryPoint) :
  ∃ space : gmap string ParamSpace,
    ∀ (env : Collaborators) (a : Args) (w : World),
      enters_pipeline_with (λ c, soc_param_dist c = space) f a
        (exec (call_entry f a) w).1 (log (exec (call_entry f a) w).2) ∧
      Forall (λ t, tp_param_dist t = space)
             (tune_calls (log (exec (call_entry f a) w).2)).
Proof.
  unfold enters_pipeline_with.
  destruct f.
  1: exists (<["criterion" := choices [LStr "gini"; LStr "entropy"]]>
               ensemble_params).
  2: exists (<["criterion" := choices [LStr "gini"; LStr "entropy"]]>
               ensemble_params).
  3-4: exists (delete "bootstrap" ensemble_params).
  5-6: exists ensemble_params.
  7-8: exists (delete "bootstrap" ensemble_params).
  9: exists linear_svm_params.
  10: exists svm_params.
  11: exists (<["epsilon" := choices [LFloat 0.0%float; LFloat 0.1%float]]>
                svm_params).
  12-14: exists linear_params.
  15-16: exists neighbors_params.
  all: intros env a w; run_catalogue;
    (split; [settle_pipeline_entry; reflexivity | repeat constructor]).
Qed.

(** The concrete run behind X4. *)
Lemma ridge_leaves_tuning_to_pipeline :
  ∃ c,
    soc_calls
      (log (exec (env := fresh_world) (call_entry fn_regress_ridge sample_args)
              0%N).2) = [c] ∧
    soc_parameter_tuning c = true.
Proof.
  destruct (tuning_is_left_to_pipeline (env := fresh_world)
              fn_regress_ridge sample_args 0%N eq_refl)
    as [(c & Hcalls & Htuning) _].
  exists c. split; [exact Hcalls|]. exact Htuning.
Defined.

(** * AdaBoost: what precedes the pipeline *)

(** A world in which the target table has no column of the requested name:
    indexing it raises. *)
Definition missing_category : Collaborators := {|
  World := N;
  ext_load_data _ _ _ w := (Returned (Obj w, Obj (w + 1)), (w + 2)%N);
  ext_getitem _ _ w := (Threw (Obj w), (w + 1)%N);
  ext_tune_parameters _ w := (Returned (ExternalEstimator (Obj w)), (w + 1)%N);
  ext_split_optimize_classify _ w :=
    (Returned (ExternalEstimator (Obj w), Obj (w + 1), Obj (w + 2),
               Obj (w + 3)), (w + 4)%N);
  ext_visualize _ w := (Returned (), w);
  ext_predict _ _ w := (Returned (Obj w), (w + 1)%N) |}.

Section AdaBoostTuning.
Context {env : Collaborators}.

(** Every pipeline call of the log was preceded by a successful load, column
    lookup and tuning, and fits the ensemble over the tuned estimator. *)
Definition tuned_before_pipeline (table : Table) (metadata : Metadata)
    (category : string) (base : Estimator) (boost : Estimator → Estimator)
    (n_jobs cv : Z) (random_state : option Z) (w : World) (l : list Event)
  : Prop :=
  Forall
    (λ c, ∃ features targets w1 column w2 tuned w3,
       ext_load_data table metadata true w
         = (Returned (features, targets), w1) ∧
       ext_getitem targets category w1 = (Returned column, w2) ∧
       ext_tune_parameters
         {| tp_features := features; tp_targets := column;
            tp_estimator := base;
            tp_param_dist := delete "bootstrap" ensemble_params;
            tp_n_jobs := n_jobs; tp_cv := cv;
            tp_random_state := random_state |} w2
         = (Returned tuned, w3) ∧
       soc_estimator c = boost tuned)
    (soc_calls l).

(** X8. With [parameter_tuning] true, an AdaBoost entry point enters the
    pipeline only after [load_data], [targets[category]] and
    [tune_parameters] have all returned, each in the world the previous one
    left, and the ensemble it fits is built over the estimator
    [tune_parameters] returned. *)
Theorem adaboost_pipeline_only_after_tuning
    output_dir table metadata category test_size step cv random_state n_jobs
    n_estimators optimize_feature_selection w :
  tuned_before_pipeline table metadata category DecisionTreeClassifier
    (λ b, AdaBoostClassifier b n_estimators) n_jobs cv random_state w
    (log (exec (classify_adaboost output_dir table metadata category
                  test_size step cv random_state n_jobs n_estimators
                  optimize_feature_selection true) w).2) ∧
  tuned_before_pipeline table metadata category DecisionTreeRegressor
    (λ b, AdaBoostRegressor b n_estimators) n_jobs cv random_state w
    (log (exec (regress_adaboost output_dir table metadata category
                  test_size step cv random_state n_jobs n_estimators
                  optimize_feature_selection true) w).2).
Proof.
  unfold tuned_before_pipeline. split.
  - unfold classify_adaboost. run_entry.
    repeat case_collaborator; repeat constructor;
      do 7 eexists; repeat split; eassumption.
  - unfold regress_adaboost. run_entry.
    repeat case_collaborator; repeat constructor;
      do 7 eexists; repeat split; eassumption.
Qed.

(** X9. With [parameter_tuning] true, when the loaded targets have no
    [category] column, an AdaBoost entry point ends with the exception of
    that lookup after exactly two calls: nothing is tuned, the pipeline is
    not entered and no report is written. *)
Theorem adaboost_missing_category
    output_dir table metadata category test_size step cv random_state n_jobs
    n_estimators optimize_feature_selection w features targets w1 exc w2 :
  ext_load_data table metadata true w = (Returned (features, targets), w1) →
  ext_getitem targets category w1 = (Threw exc, w2) →
  exec (classify_adaboost output_dir table metadata category test_size step
          cv random_state n_jobs n_estimators optimize_feature_selection
          true) w
  = (Raise (Propagated exc),
     {| world := w2;
        log := [Called (call_load_data table metadata true) None;
                Called (call_getitem targets category) (Some exc)] |}) ∧
  exec (regress_adaboost output_dir table metadata category test_size step
          cv random_state n_jobs n_estimators optimize_feature_selection
          true) w
  = (Raise (Propagated exc),
     {| world := w2;
        log := [Called (call_load_data table metadata true) None;
                Called (call_getitem targets category) (Some exc)] |}).
Proof.
  intros Hload Hcolumn. split.
  - unfold classify_adaboost. run_entry. rewrite Hload. simpl.
    rewrite Hcolumn. reflexivity.
  - unfold regress_adaboost. run_entry. rewrite Hload. simpl.
    rewrite Hcolumn. reflexivity.
Qed.

End AdaBoostTuning.

(** The concrete run behind X9. *)
Lemma adaboost_missing_category_run :
  (exec (env := missing_category)
     (regress_adaboost "report" (BiomTable 1) (QiimeMetadata 2) "ph"
        0.2%float 0.05%float 5 None 1 100 false true) 0%N).1
  = Raise (Propagated (Obj 2)).
Proof.
  destruct (adaboost_missing_category (env := missing_category)
              "report" (BiomTable 1) (QiimeMetadata 2) "ph"
              0.2%float 0.05%float 5 None 1 100 false 0%N
              (Obj 0) (Obj 1) 2%N (Obj 2) 3%N eq_refl eq_refl)
    as [_ Hregress].
  rewrite Hregress. reflexivity.
Defined.

(** * Search spaces *)

Section SearchSpaces.
Context {env : Collaborators}.

(** The one pipeline call of a run passes a space that is [base] with the
    entry [key ↦ candidates] added. *)
Definition searches_extension (base : gmap string ParamSpace) (key : string)
    (candidates : list PyLit) (l : list Event) : Prop :=
  ∃ c, soc_calls l = [c] ∧
       soc_param_dist c !! key = Some (choices candidates) ∧
       delete key (soc_param_dist c) = base.

(** The one pipeline call of a run passes [base] itself. *)
Definition searches (base : gmap string ParamSpace) (l : list Event)
  : Prop :=
  ∃ c, soc_calls l = [c] ∧ soc_param_dist c = base.

(** X10. The random-forest and extra-trees classifiers search the space of
    their regressors, [ensemble_params] with its ["bootstrap"] entry, with
    the one key ["criterion"] added; [regress_SVR] searches the space of
    [classify_SVC], [svm_params], with the one key ["epsilon"] added.  The
    module-level dictionaries are passed on without the added key. *)
Theorem classifier_regressor_spaces
    output_dir table metadata category test_size step cv random_state n_jobs
    n_estimators optimize_feature_selection parameter_tuning kernel w :
  searches_extension ensemble_params "criterion"
    [LStr "gini"; LStr "entropy"]
    (log (exec (classify_random_forest output_dir table metadata category
                  test_size step cv random_state n_jobs n_estimators
                  optimize_feature_selection parameter_tuning) w).2) ∧
  searches_extension ensemble_params "criterion"
    [LStr "gini"; LStr "entropy"]
    (log (exec (classify_extra_trees output_dir table metadata category
                  test_size step cv random_state n_jobs n_estimators
                  optimize_feature_selection parameter_tuning) w).2) ∧
  searches ensemble_params
    (log (exec (regress_random_forest output_dir table metadata category
                  test_size step cv random_state n_jobs n_estimators
                  optimize_feature_selection parameter_tuning) w).2) ∧
  searches ensemble_params
    (log (exec (regress_extra_trees output_dir table metadata category
                  test_size step cv random_state n_jobs n_estimators
                  optimize_feature_selection parameter_tuning) w).2) ∧
  searches svm_params
    (log (exec (classify_SVC output_dir table metadata category test_size
                  step cv random_state n_jobs parameter_tuning
                  optimize_feature_selection kernel) w).2) ∧
  searches_extension svm_params "epsilon"
    [LFloat 0.0%float; LFloat 0.1%float]
    (log (exec (regress_SVR output_dir table metadata category test_size
                  step cv random_state n_jobs parameter_tuning
                  optimize_feature_selection kernel) w).2) ∧
  is_Some (ensemble_params !! "bootstrap").
Proof.
  unfold searches_extension, searches.
  repeat apply conj; [..|by eexists].
  all: unfold classify_random_forest, classify_extra_trees,
         regress_random_forest, regress_extra_trees, classify_SVC,
         regress_SVR;
    run_entry;
    repeat match goal with
           | |- context [bool_decide (?k = "linear")] =>
               destruct (bool_decide (k = "linear")); simpl
           end;
    repeat case_collaborator;
    eexists; (split; [reflexivity|]); simpl; try reflexivity;
    split; reflexivity.
Qed.

End SearchSpaces.

(** * The comprehension that drops a key *)

(** Over keys that are all present, the comprehension does not raise, and
    its result holds [d]'s entry at every selected key and [acc]'s
    elsewhere. *)
Lemma dict_comprehension_lookup {V} (d : gmap string V)
    (cond : string → bool) (ks : list string) (acc : gmap string V) :
  (∀ k, k ∈ ks → is_Some (d !! k)) →
  ∃ m, dict_comprehension ks cond (dict_getitem d) acc = Ok m ∧
       ∀ k, m !! k = if bool_decide (k ∈ ks ∧ cond k = true)
                     then d !! k else acc !! k.
Proof.
  revert acc. induction ks as [|k0 ks IH]; intros acc Hpresent.
  - exists acc. split; [reflexivity|]. intros k.
    rewrite bool_decide_eq_false_2; [reflexivity|].
    intros [Hin _]. by apply not_elem_of_nil in Hin.
  - assert (Hrest : ∀ k, k ∈ ks → is_Some (d !! k)).
    { intros k Hk. apply Hpresent. by right. }
    cbn [dict_comprehension]. destruct (cond k0) eqn:Hcond.
    + destruct (Hpresent k0) as [v Hv]; [by left|].
      assert (Hget : dict_getitem d k0 = Ok v).
      { unfold dict_getitem. by rewrite Hv. }
      rewrite Hget.
      destruct (IH (<[k0 := v]> acc) Hrest) as (m & Hrun & Hm).
      exists m. split; [exact Hrun|]. intros k. rewrite Hm.
      destruct (decide (k = k0)) as [->|Hne].
      * rewrite lookup_insert_eq.
        rewrite (bool_decide_eq_true_2 (k0 ∈ k0 :: ks ∧ cond k0 = true));
          [|split; [by left|done]].
        by case_bool_decide.
      * rewrite lookup_insert_ne by done.
        apply (f_equal (λ b : bool, if b then d !! k else acc !! k)).
        apply bool_decide_ext. rewrite elem_of_cons. split.
        -- intros [Hin Hk]. split; [by right|done].
        -- intros [[->|Hin] Hk]; [done|by split].
    + destruct (IH acc Hrest) as (m & Hrun & Hm).
      exists m. split; [exact Hrun|]. intros k. rewrite Hm.
      apply (f_equal (λ b : bool, if b then d !! k else acc !! k)).
      apply bool_decide_ext. rewrite elem_of_cons.
      split; [intros [Hin Hk]; split; [by right|done]|].
      intros [[->|Hin] Hk]; [congruence|done].
Qed.

Lemma elem_of_keys {V} (d : gmap string V) (k : string) :
  k ∈ keys d ↔ is_Some (d !! k).
Proof.
  unfold keys. rewrite list_elem_of_fmap. split.
  - intros ([k' v] & -> & Hin). apply elem_of_map_to_list in Hin. by exists v.
  - intros [v Hv]. exists (k, v). split; [done|].
    by apply elem_of_map_to_list.
Qed.

(** X11. The comprehension [{k: d[k] for k in d.keys() if k != x}] of the
    boosting entry points, on any dictionary [d] in place of
    [ensemble_params], never raises [KeyError] and yields [d] without the key
    [x]: [d] itself when [x] is not one of its keys. *)
Theorem comprehension_drops_key {V} (d : gmap string V) (x : string) :
  dict_comprehension (keys d) (λ k, bool_decide (k ≠ x)) (dict_getitem d) ∅
  = Ok (delete x d) ∧
  (d !! x = None → delete x d = d).
Proof.
  split; [|apply delete_id].
  destruct (dict_comprehension_lookup d (λ k, bool_decide (k ≠ x)) (keys d) ∅)
    as (m & Hrun & Hm).
  { intros k Hk. by apply elem_of_keys. }
  rewrite Hrun. f_equal. apply map_eq. intros k. rewrite Hm.
  destruct (decide (k = x)) as [->|Hne].
  - rewrite lookup_delete_eq, bool_decide_eq_false_2; [done|].
    intros [_ Hx]. apply bool_decide_eq_true_1 in Hx. done.
  - rewrite lookup_delete_ne by done. case_bool_decide as Hk; [done|].
    rewrite lookup_empty. destruct (d !! k) eqn:Hd; [|done].
    exfalso. apply Hk. split; [apply elem_of_keys; eauto|].
    by apply bool_decide_eq_true_2.
Qed.

(** The concrete run behind X11: a dictionary without the key comes back
    whole. *)
Lemma comprehension_on_linear_params :
  dict_comprehension (keys linear_params)
    (λ k, bool_decide (k ≠ "bootstrap")) (dict_getitem linear_params) ∅
  = Ok linear_params.
Proof.
  destruct (comprehension_drops_key linear_params "bootstrap")
    as [Hrun Hsame].
  rewrite Hrun, (Hsame eq_refl). reflexivity.
Defined.
